(** * Chat_BotPy: the conversation controller

    A shallow embedding of [backend/app/controllers/conversation_controller.py].
    The controller only sequences calls to its collaborators (the conversation
    repository, the AI service, the scoring service, the recommendation
    service), so the embedding is a state-and-exception monad over a world
    that holds the conversation store, the state of everything external, and
    the list of collaborator calls made so far. *)

From Stdlib Require Import ZArith.
From stdpp Require Import base strings list gmap.

(** ** Exceptions and effects *)

(** The exceptions a controller method can end with.  [ValueError],
    [AttributeError] and [KeyError] are raised by the interpreter or by the
    controller itself; [Raised] stands for whatever a collaborator raises. *)
Inductive PyExc : Type :=
| ValueError (msg : string)
| AttributeError (attr : string)
| KeyError (key : string)
| Raised (what : string).

(** A computation over a state [W] that returns a value or raises. *)
Definition Eff (W A : Type) : Type := W -> (PyExc + A) * W.

Definition ret {W A : Type} (a : A) : Eff W A :=
  fun w => (inr a, w).

Definition raise {W A : Type} (e : PyExc) : Eff W A :=
  fun w => (inl e, w).

Definition bind {W A B : Type} (m : Eff W A) (k : A -> Eff W B) : Eff W B :=
  fun w =>
    match m w with
    | (inl e, w') => (inl e, w')
    | (inr a, w') => k a w'
    end.

Declare Scope eff_scope.
Delimit Scope eff_scope with eff.
Notation "x <- m ;; k" := (bind m (fun x => k))
  (at level 100, m at next level, right associativity) : eff_scope.
Notation "m ;; k" := (bind m (fun _ => k))
  (at level 100, right associativity) : eff_scope.
Local Open Scope eff_scope.

(** ** What the source leaves to other modules

    The model classes, the serialisers ([to_dict]) and the clock are imported
    by the controller and not defined in it.  Their carriers and the
    operations the controller uses are collected in one interface. *)
Class Domain : Type := {
  Env : Type;                 (* state of the external world: AI provider, catalog, clock *)
  DateTime : Type;                (* datetime *)
  Metric : Type;              (* one entry of the analysis dictionary *)
  Score : Type;               (* result of the scoring service *)
  Course : Type;
  Recommendation : Type;
  Value : Type;               (* a serialised value *)
  VNone : Value;              (* Python's None as a dictionary value *)
  utcnow : Env -> DateTime * Env; (* datetime.utcnow() *)
  course_id : Recommendation -> string;            (* rec.course_id *)
  rec_to_dict : Recommendation -> gmap string Value; (* rec.to_dict() *)
  course_to_dict : Course -> Value;                (* course.to_dict() *)
  score_to_dict : Score -> Value                   (* new_score.to_dict() *)
}.

Section Controller.
Context `{D : Domain}.

(** ** Data model (app.models.conversation) *)

(** [MessageAnalysis(grammar=, vocabulary=, naturalness=, response_time=)]. *)
Record MessageAnalysis : Type := {
  grammar : Metric;
  vocabulary : Metric;
  naturalness : Metric;
  response_time : option Z
}.

(** [Message(role=, content=, timestamp=, analysis=)]; [analysis] is [None]
    when the constructor is called without it.

    Modelled from the spec: the message's own optional response-time
    measurement, [message_response_time].  The class is not part of the
    sources; the controller's two constructor calls pass the four keywords
    above and no response time, so on the messages it builds this field is
    [None], whether the class leaves it at a default or has no such
    attribute. *)
Record Message : Type := {
  role : string;
  content : string;
  timestamp : DateTime;
  analysis : option MessageAnalysis;
  message_response_time : option Z
}.

(** [Conversation(user_id=, topic=, level=)] with its message sequence,
    current score and recommendation sequence. *)
Record Conversation : Type := {
  user_id : string;
  topic : string;
  level : string;
  messages : list Message;
  score : option Score;
  recommendations : list Recommendation
}.

(** Modelled from the spec: [Conversation.add_message] (app.models.conversation
    is not part of the sources): the message is appended to the message
    sequence, insertion order is conversational order. *)
Definition add_message (c : Conversation) (m : Message) : Conversation :=
  {| user_id := user_id c; topic := topic c; level := level c;
     messages := messages c ++ [m];
     score := score c; recommendations := recommendations c |}.

(** Modelled from the spec: [Conversation.get_chat_history]: the ordered list
    of (role, content) pairs of every message so far. *)
Definition get_chat_history (c : Conversation) : list (string * string) :=
  map (fun m => (role m, content m)) (messages c).

(** Modelled from the spec: [Conversation.update_score]: the current score is
    replaced, the old one is not kept. *)
Definition update_score (c : Conversation) (s : Score) : Conversation :=
  {| user_id := user_id c; topic := topic c; level := level c;
     messages := messages c;
     score := Some s; recommendations := recommendations c |}.

(** Modelled from the spec: [Conversation.add_recommendations]:
    recommendations accumulate, new ones go after the earlier ones. *)
Definition add_recommendations (c : Conversation) (recs : list Recommendation)
  : Conversation :=
  {| user_id := user_id c; topic := topic c; level := level c;
     messages := messages c;
     score := score c; recommendations := recommendations c ++ recs |}.

(** The values of the dictionary [send_message] returns.  [Message.to_dict]
    is not part of the sources; the entry of a message holds the message
    itself in place of its serialised form. *)
Inductive Json : Type :=
| JValue (v : Value)
| JMessage (m : Message).

(** ** Collaborators *)

(** The contents of the Conversation Store, keyed by conversation id. *)
Definition Store : Type := gmap string Conversation.

(** [ConversationRepository]: the operations the controller calls, each a
    transformer of the store that may raise. *)
Record ConversationRepository : Type := {
  find_by_id : string -> Store -> (PyExc + option Conversation) * Store;
  update : string -> Conversation -> Store -> (PyExc + unit) * Store;
  find_by_user_id :
    string -> Z -> Z -> Store -> (PyExc + list Conversation) * Store
}.

(** [IAIService]: the Analysis Capability returns a dictionary, the Dialogue
    Capability returns the reply text. *)
Record IAIService : Type := {
  analyze_message :
    string -> string -> Env -> (PyExc + gmap string Metric) * Env;
  chat :
    list (string * string) -> string -> string -> Env -> (PyExc + string) * Env
}.

Record ScoringService : Type := {
  calculate_overall_score : list Message -> Env -> (PyExc + Score) * Env
}.

Record RecommendationService : Type := {
  generate_recommendations :
    Conversation -> list Course -> Env -> (PyExc + list Recommendation) * Env
}.

(** The course catalog; its two operations carry the prefix [course_] because
    [find_by_id] already names the conversation repository's. *)
Record CourseRepository : Type := {
  course_find_by_level : string -> Env -> (PyExc + list Course) * Env;
  course_find_by_id : string -> Env -> (PyExc + option Course) * Env
}.

(** Modelled from the spec: the Conversation Store
    (app.repositories.conversation_repository is not part of the sources):
    durable keyed storage; [findById] returns the stored conversation or
    absent and writes nothing, [update] replaces the conversation stored
    under the id and fails if the id is absent.  What [find_by_id] hands out
    is the stored value, not a reference into the store: what the controller
    does to it in memory reaches the store through [update] only.  The
    paginated query is left to [query]. *)
Definition store_repository
    (query : string -> Z -> Z -> Store -> PyExc + list Conversation)
  : ConversationRepository :=
  {| find_by_id := fun cid st => (inr (st !! cid), st);
     update := fun cid c st =>
       match st !! cid with
       | Some _ => (inr tt, <[cid := c]> st)
       | None => (inl (Raised "update: conversation id absent"), st)
       end;
     find_by_user_id := fun uid skip limit st => (query uid skip limit st, st) |}.

(** ** The world and the calls made in it *)

(** One outgoing call of the controller, with its arguments. *)
Inductive Call : Type :=
| CallFindById (cid : string)
| CallUpdate (cid : string) (c : Conversation)
| CallFindByUserId (uid : string) (skip limit : Z)
| CallAnalyze (text lvl : string)
| CallChat (history : list (string * string)) (tpc lvl : string)
| CallScore (msgs : list Message)
| CallGenerate (c : Conversation) (courses : list Course)
| CallCoursesByLevel (lvl : string)
| CallCourseById (id : string).

Record World : Type := {
  store : Store;
  env : Env;
  calls : list Call
}.

Definition M (A : Type) : Type := Eff World A.

(** Append a call to the log; it is logged when it is made, whether or not it
    returns. *)
Definition log (c : Call) : M unit :=
  fun w => (inr tt, {| store := store w; env := env w; calls := calls w ++ [c] |}).

Definition on_store {A : Type} (op : Store -> (PyExc + A) * Store) : M A :=
  fun w =>
    let '(r, st) := op (store w) in
    (r, {| store := st; env := env w; calls := calls w |}).

Definition on_env {A : Type} (op : Env -> (PyExc + A) * Env) : M A :=
  fun w =>
    let '(r, e) := op (env w) in
    (r, {| store := store w; env := e; calls := calls w |}).

(** [datetime.utcnow()] reads the clock of the external world. *)
Definition now : M DateTime :=
  fun w =>
    let '(t, e) := utcnow (env w) in
    (inr t, {| store := store w; env := e; calls := calls w |}).

(** [d[key]] on a dictionary: [KeyError] when the key is missing. *)
Definition getitem {V : Type} (d : gmap string V) (key : string) : M V :=
  match d !! key with
  | Some v => ret v
  | None => raise (KeyError key)
  end.

(** ** ConversationController *)

(** The attributes of an instance that the methods read.  [__init__] binds
    four of them; [course_repo] is an attribute name that [get_recommendations]
    reads and [__init__] never binds, so its slot is [None] until some caller
    sets the attribute on the instance. *)
Record ConversationController : Type := {
  conversation_repo : ConversationRepository;
  ai_service : IAIService;
  scoring_service : ScoringService;
  recommendation_service : RecommendationService;
  course_repo : option CourseRepository
}.

Definition __init__
    (conversation_repo : ConversationRepository)
    (ai_service : IAIService)
    (scoring_service : ScoringService)
    (recommendation_service : RecommendationService)
  : ConversationController :=
  {| conversation_repo := conversation_repo;
     ai_service := ai_service;
     scoring_service := scoring_service;
     recommendation_service := recommendation_service;
     course_repo := None |}.

(** [controller.course_repo = repo], done by a caller after construction. *)
Definition set_course_repo (self : ConversationController)
    (repo : CourseRepository) : ConversationController :=
  {| conversation_repo := conversation_repo self;
     ai_service := ai_service self;
     scoring_service := scoring_service self;
     recommendation_service := recommendation_service self;
     course_repo := Some repo |}.

(** [self.course_repo]: attribute lookup, [AttributeError] when unbound. *)
Definition get_course_repo (self : ConversationController) : M CourseRepository :=
  match course_repo self with
  | Some repo => ret repo
  | None => raise (AttributeError "course_repo")
  end.

(** [ValueError(f"Conversation {conversation_id} not found")]. *)
Definition not_found (conversation_id : string) : PyExc :=
  ValueError ("Conversation " +:+ conversation_id +:+ " not found").

(** [send_message(conversation_id, message_content, response_time=None)].
    [if not conversation] takes the [raise] branch when [find_by_id] returned
    [None]; a conversation that was found counts as true. *)
Definition send_message (self : ConversationController)
    (conversation_id message_content : string) (response_time : option Z)
  : M (gmap string Json) :=
  log (CallFindById conversation_id) ;;
  conversation <- on_store (find_by_id (conversation_repo self) conversation_id) ;;
  match conversation with
  | None => raise (not_found conversation_id)
  | Some conversation =>
    log (CallAnalyze message_content (level conversation)) ;;
    analysis_data <- on_env (analyze_message (ai_service self)
                               message_content (level conversation)) ;;
    g <- getitem analysis_data "grammar" ;;
    v <- getitem analysis_data "vocabulary" ;;
    n <- getitem analysis_data "naturalness" ;;
    let analysis :=
      {| grammar := g; vocabulary := v; naturalness := n;
         response_time := response_time |} in
    t_user <- now ;;
    let user_message :=
      {| role := "user"; content := message_content;
         timestamp := t_user; analysis := Some analysis;
         message_response_time := None |} in
    let conversation := add_message conversation user_message in
    let chat_history := get_chat_history conversation in
    log (CallChat chat_history (topic conversation) (level conversation)) ;;
    ai_response <- on_env (chat (ai_service self) chat_history
                             (topic conversation) (level conversation)) ;;
    t_ai <- now ;;
    let ai_message :=
      {| role := "assistant"; content := ai_response;
         timestamp := t_ai; analysis := None;
         message_response_time := None |} in
    let conversation := add_message conversation ai_message in
    log (CallScore (messages conversation)) ;;
    new_score <- on_env (calculate_overall_score (scoring_service self)
                           (messages conversation)) ;;
    let conversation := update_score conversation new_score in
    log (CallUpdate conversation_id conversation) ;;
    on_store (update (conversation_repo self) conversation_id conversation) ;;
    ret ({[ "user_message" := JMessage user_message;
            "ai_message" := JMessage ai_message;
            "overall_score" := JValue (score_to_dict new_score) ]}
         : gmap string Json)
  end.

(** [get_user_conversations(user_id, skip=0, limit=20)]: the arguments go to
    the repository as they are. *)
Definition get_user_conversations (self : ConversationController)
    (user_id : string) (skip limit : Z) : M (list Conversation) :=
  log (CallFindByUserId user_id skip limit) ;;
  on_store (find_by_user_id (conversation_repo self) user_id skip limit).

(** One round of the loop over [recommendations]: look the course up and
    append [{**rec.to_dict(), 'course': ...}]; the key written last wins, so
    a ['course'] key of [rec.to_dict()] is overwritten. *)
Definition join_course (rec : Recommendation) (course : option Course)
  : gmap string Value :=
  <["course" := match course with
                | Some c => course_to_dict c
                | None => VNone
                end]> (rec_to_dict rec).

(** [for rec in recommendations: ...], with the list built so far. *)
Fixpoint detail_recommendations (self : ConversationController)
    (recommendations : list Recommendation)
    (detailed_recommendations : list (gmap string Value))
  : M (list (gmap string Value)) :=
  match recommendations with
  | [] => ret detailed_recommendations
  | rec :: rest =>
    repo <- get_course_repo self ;;
    log (CallCourseById (course_id rec)) ;;
    course <- on_env (course_find_by_id repo (course_id rec)) ;;
    detail_recommendations self rest
      (detailed_recommendations ++ [join_course rec course])
  end.

(** [get_recommendations(conversation_id)].  [self.course_repo] is looked
    up before the arguments of [find_by_level] are evaluated; the update of
    the store comes before the loop that joins the course details. *)
Definition get_recommendations (self : ConversationController)
    (conversation_id : string) : M (list (gmap string Value)) :=
  log (CallFindById conversation_id) ;;
  conversation <- on_store (find_by_id (conversation_repo self) conversation_id) ;;
  match conversation with
  | None => raise (not_found conversation_id)
  | Some conversation =>
    repo <- get_course_repo self ;;
    log (CallCoursesByLevel (level conversation)) ;;
    courses <- on_env (course_find_by_level repo (level conversation)) ;;
    log (CallGenerate conversation courses) ;;
    recommendations <- on_env (generate_recommendations
                                 (recommendation_service self)
                                 conversation courses) ;;
    let conversation := add_recommendations conversation recommendations in
    log (CallUpdate conversation_id conversation) ;;
    on_store (update (conversation_repo self) conversation_id conversation) ;;
    detail_recommendations self recommendations []
  end.

(** ** Vocabulary of the statements *)

(** The two messages [send_message] builds. *)
Definition user_message_of (message_content : string) (t : DateTime)
    (g v n : Metric) (response_time : option Z) : Message :=
  {| role := "user"; content := message_content; timestamp := t;
     analysis := Some {| grammar := g; vocabulary := v; naturalness := n;
                         response_time := response_time |};
     message_response_time := None |}.

Definition ai_message_of (ai_response : string) (t : DateTime) : Message :=
  {| role := "assistant"; content := ai_response; timestamp := t;
     analysis := None; message_response_time := None |}.

(** A completed turn, step by step: what each collaborator returned and the
    world the turn ends in. *)
Inductive turn (self : ConversationController)
    (cid msg : string) (rt : option Z) (w : World)
  : gmap string Json -> World -> Prop :=
| turn_done c st1 ad e1 g v n t1 e2 reply e3 t2 e4 s e5 st2 :
    let um := user_message_of msg t1 g v n rt in
    let am := ai_message_of reply t2 in
    let c1 := add_message c um in
    let c2 := add_message c1 am in
    let c3 := update_score c2 s in
    find_by_id (conversation_repo self) cid (store w) = (inr (Some c), st1) ->
    analyze_message (ai_service self) msg (level c) (env w) = (inr ad, e1) ->
    ad !! "grammar" = Some g ->
    ad !! "vocabulary" = Some v ->
    ad !! "naturalness" = Some n ->
    utcnow e1 = (t1, e2) ->
    chat (ai_service self) (get_chat_history c1) (topic c) (level c) e2
      = (inr reply, e3) ->
    utcnow e3 = (t2, e4) ->
    calculate_overall_score (scoring_service self) (messages c2) e4
      = (inr s, e5) ->
    update (conversation_repo self) cid c3 st1 = (inr tt, st2) ->
    turn self cid msg rt w
      {[ "user_message" := JMessage um;
         "ai_message" := JMessage am;
         "overall_score" := JValue (score_to_dict s) ]}
      {| store := st2; env := e5;
         calls := calls w ++
           [ CallFindById cid;
             CallAnalyze msg (level c);
             CallChat (get_chat_history c1) (topic c) (level c);
             CallScore (messages c2);
             CallUpdate cid c3 ] |}.

(** The calls that reach a capability or write to the store. *)
Definition is_effect (c : Call) : bool :=
  match c with
  | CallAnalyze _ _ | CallChat _ _ _ | CallUpdate _ _ => true
  | _ => false
  end.

Definition is_store_call (c : Call) : bool :=
  match c with
  | CallFindById _ | CallUpdate _ _ | CallFindByUserId _ _ _ => true
  | _ => false
  end.

(** A call that is turned down before the store is reached: it raises and
    has made no call to the conversation repository. *)
Definition rejected_before_store (run : M (list Conversation)) (w : World) : Prop :=
  exists e w',
    run w = (inl e, w')
    /\ List.filter is_store_call (drop (length (calls w)) (calls w')) = [].

End Controller.

(** ** The lookup method and the vocabulary of the further properties *)

Section Lookup.
Context `{D : Domain}.

(** [get_conversation(conversation_id)]: what the repository returns,
    a conversation or [None]; absence is not an error here. *)
Definition get_conversation (self : ConversationController)
    (conversation_id : string) : M (option Conversation) :=
  log (CallFindById conversation_id) ;;
  on_store (find_by_id (conversation_repo self) conversation_id).

(** The first of the three keys [send_message] reads, in the order it reads
    them, that the analysis dictionary lacks. *)
Definition first_missing_metric (analysis_data : gmap string Metric)
  : option string :=
  match analysis_data !! "grammar" with
  | None => Some "grammar"
  | Some _ =>
    match analysis_data !! "vocabulary" with
    | None => Some "vocabulary"
    | Some _ =>
      match analysis_data !! "naturalness" with
      | None => Some "naturalness"
      | Some _ => None
      end
    end
  end.

(** [c1] continues [c0]: same owner, topic, level and recommendations, and
    the messages of [c0] are the first messages of [c1], in the same order. *)
Definition continues (c0 c1 : Conversation) : Prop :=
  user_id c1 = user_id c0
  /\ topic c1 = topic c0
  /\ level c1 = level c0
  /\ recommendations c1 = recommendations c0
  /\ messages c0 `prefix_of` messages c1.

(** [c1] is [c0] with recommendations added at the end and nothing else
    changed. *)
Definition recommends_more (c0 c1 : Conversation) : Prop :=
  user_id c1 = user_id c0
  /\ topic c1 = topic c0
  /\ level c1 = level c0
  /\ messages c1 = messages c0
  /\ score c1 = score c0
  /\ recommendations c0 `prefix_of` recommendations c1.

(** An assistant message has no analysis, and an analysis sits on a user
    message only. *)
Definition annotated (m : Message) : Prop :=
  (role m = "assistant" -> analysis m = None)
  /\ (is_Some (analysis m) -> role m = "user").

(** What the catalog answered in one run of the loop over the
    recommendations: [course_lookups cr recs e ocs e'] holds when, started in
    the outside world [e], the lookup of the course of each recommendation in
    turn, each in the world the one before left, returned the course or
    absent listed in [ocs], and the last one left the world [e']. *)
Inductive course_lookups (cr : CourseRepository)
  : list Recommendation -> Env -> list (option Course) -> Env -> Prop :=
| course_lookups_nil e : course_lookups cr [] e [] e
| course_lookups_cons rec rest e oc e1 ocs e2 :
    course_find_by_id cr (course_id rec) e = (inr oc, e1) ->
    course_lookups cr rest e1 ocs e2 ->
    course_lookups cr (rec :: rest) e (oc :: ocs) e2.

End Lookup.

(** ** A small deployment used to run the controller on concrete inputs *)

Definition demo : Domain :=
  {| Env := nat; DateTime := nat; Metric := Z; Score := Z;
     Course := string; Recommendation := string;
     Value := option string; VNone := None;
     utcnow := fun e => (e, S e);
     course_id := fun r => r;
     rec_to_dict := fun r => {[ "course_id" := Some r ]};
     course_to_dict := fun c => Some c;
     score_to_dict := fun _ => Some "score" |}.

Section Demo.
#[local] Existing Instance demo.

Definition demo_repo : ConversationRepository :=
  store_repository (fun _ _ _ _ => inr []).

Definition demo_analysis : gmap string Z :=
  {[ "grammar" := 60%Z; "vocabulary" := 90%Z; "naturalness" := 75%Z ]}.

Definition demo_ai : IAIService :=
  {| analyze_message := fun _ _ e => (inr demo_analysis, e);
     chat := fun _ _ _ e => (inr "hai", e) |}.

(** An AI service whose Dialogue Capability is down. *)
Definition demo_ai_down : IAIService :=
  {| analyze_message := fun _ _ e => (inr demo_analysis, e);
     chat := fun _ _ _ e => (inl (Raised "dialogue unavailable"), e) |}.

Definition demo_scoring : ScoringService :=
  {| calculate_overall_score := fun msgs e => (inr (Z.of_nat (length msgs)), e) |}.

Definition demo_recommender : RecommendationService :=
  {| generate_recommendations := fun _ courses e => (inr (courses ++ ["gone"]), e) |}.

Definition demo_courses : CourseRepository :=
  {| course_find_by_level := fun lvl e => (inr ["kanji-1"], e);
     course_find_by_id := fun id e =>
       (inr (if decide (id = "kanji-1") then Some id else None), e) |}.

Definition demo_controller : ConversationController :=
  __init__ demo_repo demo_ai demo_scoring demo_recommender.

Definition demo_controller_down : ConversationController :=
  __init__ demo_repo demo_ai_down demo_scoring demo_recommender.

(** A conversation with one earlier turn. *)
Definition demo_conversation : Conversation :=
  {| user_id := "u1"; topic := "travel"; level := "N4";
     messages :=
       [ {| role := "user"; content := "konnichiwa"; timestamp := 0;
            analysis := Some {| grammar := 70%Z; vocabulary := 80%Z;
                                naturalness := 75%Z; response_time := None |};
            message_response_time := None |};
         {| role := "assistant"; content := "hai"; timestamp := 1;
            analysis := None; message_response_time := None |} ];
     score := Some 2%Z; recommendations := [] |}.

Definition demo_world : World :=
  {| store := {[ "c1" := demo_conversation ]}; env := 2; calls := [] |}.

(** An AI service whose analysis lacks the vocabulary metric. *)
Definition demo_ai_partial : IAIService :=
  {| analyze_message := fun _ _ e =>
       (inr ({[ "grammar" := 60%Z; "naturalness" := 75%Z ]} : gmap string Z), e);
     chat := fun _ _ _ e => (inr "hai", e) |}.

(** An AI service whose Analysis Capability is down. *)
Definition demo_ai_blind : IAIService :=
  {| analyze_message := fun _ _ e => (inl (Raised "analysis unavailable"), e);
     chat := fun _ _ _ e => (inr "hai", e) |}.

(** A scoring service that raises. *)
Definition demo_scoring_down : ScoringService :=
  {| calculate_overall_score := fun _ e => (inl (Raised "scoring failed"), e) |}.

(** A recommendation service that raises, and one with nothing to suggest. *)
Definition demo_recommender_down : RecommendationService :=
  {| generate_recommendations := fun _ _ e => (inl (Raised "no engine"), e) |}.

Definition demo_recommender_empty : RecommendationService :=
  {| generate_recommendations := fun _ _ e => (inr [], e) |}.

(** A catalog that lists courses and raises when asked for one by id. *)
Definition demo_courses_down : CourseRepository :=
  {| course_find_by_level := fun lvl e => (inr ["kanji-1"], e);
     course_find_by_id := fun id e => (inl (Raised "catalog unavailable"), e) |}.

(** One turn on the stored conversation, with a response time. *)
Definition demo_turn : (PyExc + gmap string Json) * World :=
  send_message demo_controller "c1" "ohayou" (Some 1200%Z) demo_world.

Definition demo_turn_result : gmap string Json :=
  match fst demo_turn with
  | inr res => res
  | inl _ => ∅
  end.

(** The world [demo_turn] ends in, and a second turn from there. *)
Definition demo_world1 : World := Eval vm_compute in snd demo_turn.

Definition demo_turn2 : (PyExc + gmap string Json) * World :=
  Eval vm_compute in
    send_message demo_controller "c1" "arigatou" None demo_world1.

Definition demo_turn2_result : gmap string Json :=
  Eval vm_compute in
    match fst demo_turn2 with
    | inr res => res
    | inl _ => ∅
    end.

(** The controller with a catalog attached, and two recommendation
    requests in a row. *)
Definition demo_controller_courses : ConversationController :=
  set_course_repo demo_controller demo_courses.

Definition demo_recs : (PyExc + list (gmap string Value)) * World :=
  Eval vm_compute in
    get_recommendations demo_controller_courses "c1" demo_world.

Definition demo_recs2 : (PyExc + list (gmap string Value)) * World :=
  Eval vm_compute in
    get_recommendations demo_controller_courses "c1" (snd demo_recs).

Definition detailed_of (r : PyExc + list (gmap string Value))
  : list (gmap string Value) :=
  match r with
  | inr d => d
  | inl _ => []
  end.

End Demo.

(** ** Properties *)

(** *** The monad *)

Lemma bind_inr {W A B : Type} (m : Eff W A) (k : A -> Eff W B) w a w' :
  m w = (inr a, w') -> bind m k w = k a w'.
Proof. intros H. unfold bind. now rewrite H. Qed.

Lemma bind_inl {W A B : Type} (m : Eff W A) (k : A -> Eff W B) w e w' :
  m w = (inl e, w') -> bind m k w = (inl e, w').
Proof. intros H. unfold bind. now rewrite H. Qed.

Lemma snoc5 {A : Type} (l : list A) x1 x2 x3 x4 x5 :
  ((((l ++ [x1]) ++ [x2]) ++ [x3]) ++ [x4]) ++ [x5] = l ++ [x1; x2; x3; x4; x5].
Proof. now rewrite <- !app_assoc. Qed.

Section Properties.
Context `{D : Domain}.

Implicit Types (self : ConversationController) (w : World) (c : Conversation).

(** *** Running a method: case analysis on what each collaborator returns *)

Ltac run_step H :=
  match type of H with
  | context [match ?x with _ => _ end] =>
      lazymatch x with
      | context [match _ with _ => _ end] => fail
      | _ => destruct x eqn:?
      end
  end; simpl in H.

Ltac run_in H :=
  unfold send_message, get_recommendations, get_user_conversations,
    get_course_repo, bind, log, on_store, on_env, now, getitem, ret, raise in H;
  simpl in H; repeat run_step H; try discriminate.

(** [send_message] returns normally exactly when every step of the turn
    does. *)
Lemma send_message_inr self cid msg rt w res w' :
  send_message self cid msg rt w = (inr res, w') <-> turn self cid msg rt w res w'.
Proof.
  split.
  - intros H. run_in H.
    match goal with u : unit |- _ => destruct u end.
    injection H as <- <-. rewrite snoc5.
    eapply turn_done; eassumption.
  - intros [c st1 ad e1 g v n t1 e2 reply e3 t2 e4 s e5 st2 um am c1 c2 c3
              Hfind Han Hg Hv Hn Ht1 Hchat Ht2 Hsc Hup].
    subst um am c1 c2 c3. unfold user_message_of, ai_message_of in *.
    unfold send_message, bind, log, on_store, on_env, now, getitem, ret.
    simpl in *.
    rewrite Hfind. simpl. rewrite Han. simpl. rewrite Hg, Hv, Hn. simpl.
    rewrite Ht1. simpl. rewrite Hchat. simpl. rewrite Ht2. simpl.
    rewrite Hsc. simpl. rewrite Hup. simpl.
    now rewrite snoc5.
Qed.

(** C5: a turn on a conversation id that the store does not hold ends in the
    not-found [ValueError]; the only call made is the one lookup, so nothing
    is written, neither the Analysis nor the Dialogue Capability is called,
    and the lookup is not repeated. *)
Theorem send_message_absent_id q ai sc rs cid msg rt w :
  store w !! cid = None ->
  send_message (__init__ (store_repository q) ai sc rs) cid msg rt w
  = (inl (ValueError ("Conversation " +:+ cid +:+ " not found")),
     {| store := store w; env := env w;
        calls := calls w ++ [CallFindById cid] |}).
Proof.
  intros Habs. unfold send_message, bind, log, on_store. simpl.
  rewrite Habs. reflexivity.
Qed.

(** C1: when the Dialogue Capability raises, [send_message] ends in that
    exception after the lookup, the analysis and the dialogue call, and the
    store is the one the call started from; the user message and its analysis
    are in no returned value and in no stored conversation.  More generally
    every call that ends in an exception leaves the store as it was and has
    made no update call. *)
Theorem send_message_failure_keeps_store q ai sc rs cid msg rt w :
  let self := __init__ (store_repository q) ai sc rs in
  (forall c ad e1 g v n t1 e2 err e3,
      store w !! cid = Some c ->
      analyze_message ai msg (level c) (env w) = (inr ad, e1) ->
      ad !! "grammar" = Some g ->
      ad !! "vocabulary" = Some v ->
      ad !! "naturalness" = Some n ->
      utcnow e1 = (t1, e2) ->
      chat ai (get_chat_history (add_message c (user_message_of msg t1 g v n rt)))
        (topic c) (level c) e2 = (inl err, e3) ->
      send_message self cid msg rt w
      = (inl err,
         {| store := store w; env := e3;
            calls := calls w ++
              [ CallFindById cid;
                CallAnalyze msg (level c);
                CallChat (get_chat_history
                            (add_message c (user_message_of msg t1 g v n rt)))
                  (topic c) (level c) ] |}))
  /\ (forall err w',
      send_message self cid msg rt w = (inl err, w') ->
      store w' = store w
      /\ forall cid' c', CallUpdate cid' c' ∉ drop (length (calls w)) (calls w')).
Proof.
  intros self. split.
  - intros c ad e1 g v n t1 e2 err e3 Hc Han Hg Hv Hn Ht Hchat.
    unfold user_message_of in Hchat.
    unfold send_message, bind, log, on_store, on_env, now, getitem, ret.
    simpl in *.
    rewrite Hc. simpl. rewrite Han. simpl. rewrite Hg, Hv, Hn. simpl.
    rewrite Ht. simpl. rewrite Hchat. simpl.
    now rewrite <- !app_assoc.
  - intros err w' H. run_in H; injection H as <- <-; simpl.
    all: repeat match goal with
           | E : (_, _) = (_, _) |- _ => injection E as ? ?; subst
           end.
    all: split; [reflexivity |].
    all: intros cid' c'; rewrite <- ?app_assoc, drop_app_length; simpl.
    all: rewrite ?elem_of_cons, elem_of_nil; intros Hin.
    all: repeat (destruct Hin as [Hin | Hin]; [discriminate Hin |]).
    all: try contradiction.
Qed.

(** C2: after a successful turn the stored conversation is the one found at
    the start with exactly two messages appended after all earlier ones,
    first the user message holding the analysis the Analysis Capability
    returned, then the assistant message without analysis, and its score is
    what the scoring service returned for that whole new message sequence;
    nothing else in the store changes. *)
Theorem send_message_appends_two_and_rescores q ai sc rs cid msg rt w res w' c :
  store w !! cid = Some c ->
  send_message (__init__ (store_repository q) ai sc rs) cid msg rt w
    = (inr res, w') ->
  exists um am a s ad e1 e4 e5,
    role um = "user" /\ content um = msg /\ analysis um = Some a /\
    analyze_message ai msg (level c) (env w) = (inr ad, e1) /\
    ad !! "grammar" = Some (grammar a) /\
    ad !! "vocabulary" = Some (vocabulary a) /\
    ad !! "naturalness" = Some (naturalness a) /\
    role am = "assistant" /\ analysis am = None /\
    calculate_overall_score sc (messages c ++ [um; am]) e4 = (inr s, e5) /\
    store w' =
      <[cid := {| user_id := user_id c; topic := topic c; level := level c;
                  messages := messages c ++ [um; am];
                  score := Some s;
                  recommendations := recommendations c |}]> (store w).
Proof.
  intros Hc H. apply send_message_inr in H.
  destruct H as [c0 st1 ad e1 g v n t1 e2 reply e3 t2 e4 s e5 st2 um am c1 c2 c3
                   Hfind Han Hg Hv Hn Ht1 Hchat Ht2 Hsc Hup].
  simpl in Hfind, Hup, Han, Hsc. rewrite Hc in Hfind.
  injection Hfind as <- <-. rewrite Hc in Hup. injection Hup as <-.
  subst c3 c2 c1. unfold add_message in Hsc. simpl in Hsc.
  rewrite <- app_assoc in Hsc. simpl in Hsc.
  exists um, am,
    {| grammar := g; vocabulary := v; naturalness := n; response_time := rt |},
    s, ad, e1, e4, e5.
  repeat split; try assumption.
  simpl. unfold update_score, add_message. simpl.
  now rewrite <- app_assoc.
Qed.

(** C6: a turn that returns has applied each collaborator once, each to
    the state the one before left: the lookup on the store of the start, the
    Analysis Capability on the outside world of the start, the Dialogue
    Capability on the world after the analysis and one clock reading, the
    scoring service after the reply and a second clock reading, and the
    update on the store the lookup left.  The world the turn ends in is the
    store the update gave and the outside world the scoring gave.  The
    calls made are these five in this order; among them one call to the
    Analysis Capability, then one to the Dialogue Capability, then one store
    update, and no other capability call or store write. *)
Theorem send_message_call_sequence self cid msg rt w res w' :
  send_message self cid msg rt w = (inr res, w') ->
  exists c st1 ad e1 g v n t1 e2 reply e3 t2 e4 s e5 st2,
    let um := user_message_of msg t1 g v n rt in
    let am := ai_message_of reply t2 in
    let c' := update_score (add_message (add_message c um) am) s in
    find_by_id (conversation_repo self) cid (store w) = (inr (Some c), st1)
    /\ analyze_message (ai_service self) msg (level c) (env w) = (inr ad, e1)
    /\ ad !! "grammar" = Some g
    /\ ad !! "vocabulary" = Some v
    /\ ad !! "naturalness" = Some n
    /\ utcnow e1 = (t1, e2)
    /\ chat (ai_service self) (get_chat_history (add_message c um))
         (topic c) (level c) e2 = (inr reply, e3)
    /\ utcnow e3 = (t2, e4)
    /\ calculate_overall_score (scoring_service self)
         (messages (add_message (add_message c um) am)) e4 = (inr s, e5)
    /\ update (conversation_repo self) cid c' st1 = (inr tt, st2)
    /\ w' = {| store := st2; env := e5;
               calls := calls w ++
                 [ CallFindById cid;
                   CallAnalyze msg (level c);
                   CallChat (get_chat_history (add_message c um))
                     (topic c) (level c);
                   CallScore (messages (add_message (add_message c um) am));
                   CallUpdate cid c' ] |}
    /\ List.filter is_effect (drop (length (calls w)) (calls w'))
       = [ CallAnalyze msg (level c);
           CallChat (get_chat_history (add_message c um)) (topic c) (level c);
           CallUpdate cid c' ].
Proof.
  intros H. apply send_message_inr in H.
  destruct H as [c st1 ad e1 g v n t1 e2 reply e3 t2 e4 s e5 st2 um am c1 c2 c3
                   Hfind Han Hg Hv Hn Ht1 Hchat Ht2 Hsc Hup].
  exists c, st1, ad, e1, g, v, n, t1, e2, reply, e3, t2, e4, s, e5, st2.
  cbv zeta. simpl calls.
  do 10 (split; [assumption |]).
  split; [reflexivity |].
  now rewrite drop_app_length.
Qed.


(** C7: once a turn has found the conversation, got a complete analysis
    and read the clock, it applies the Dialogue Capability to the (role,
    content) pair of every message of the conversation as loaded, in order,
    followed by the pair of the user message built in this call, and to the
    conversation's topic and level.  What the capability gives on exactly
    these arguments decides the turn: its exception is the one the turn ends
    in, and its reply is the text of the assistant message that is scored,
    stored and returned. *)
Theorem send_message_chat_arguments self cid msg rt w c st1 ad e1 g v n t1 e2 :
  let um := user_message_of msg t1 g v n rt in
  let h := map (fun m => (role m, content m)) (messages c) ++ [("user", msg)] in
  find_by_id (conversation_repo self) cid (store w) = (inr (Some c), st1) ->
  analyze_message (ai_service self) msg (level c) (env w) = (inr ad, e1) ->
  ad !! "grammar" = Some g ->
  ad !! "vocabulary" = Some v ->
  ad !! "naturalness" = Some n ->
  utcnow e1 = (t1, e2) ->
  get_chat_history (add_message c um) = h
  /\ (forall err e3,
       chat (ai_service self) h (topic c) (level c) e2 = (inl err, e3) ->
       send_message self cid msg rt w
       = (inl err,
          {| store := st1; env := e3;
             calls := calls w ++
               [ CallFindById cid;
                 CallAnalyze msg (level c);
                 CallChat h (topic c) (level c) ] |}))
  /\ (forall reply e3 t2 e4 s e5 st2,
       let am := ai_message_of reply t2 in
       let c' := update_score (add_message (add_message c um) am) s in
       chat (ai_service self) h (topic c) (level c) e2 = (inr reply, e3) ->
       utcnow e3 = (t2, e4) ->
       calculate_overall_score (scoring_service self)
         (messages c ++ [um; am]) e4 = (inr s, e5) ->
       update (conversation_repo self) cid c' st1 = (inr tt, st2) ->
       send_message self cid msg rt w
       = (inr {[ "user_message" := JMessage um;
                 "ai_message" := JMessage am;
                 "overall_score" := JValue (score_to_dict s) ]},
          {| store := st2; env := e5;
             calls := calls w ++
               [ CallFindById cid;
                 CallAnalyze msg (level c);
                 CallChat h (topic c) (level c);
                 CallScore (messages c ++ [um; am]);
                 CallUpdate cid c' ] |})).
Proof.
  intros um h Hfind Han Hg Hv Hn Ht1.
  assert (Hh : get_chat_history (add_message c um) = h).
  { unfold get_chat_history, add_message. simpl. now rewrite map_app. }
  split; [exact Hh |]. split.
  - intros err e3 Hchat. rewrite <- Hh in *. subst um.
    unfold user_message_of in *.
    unfold send_message, bind, log, on_store, on_env, now, getitem, ret.
    simpl in *.
    rewrite Hfind. simpl. rewrite Han. simpl. rewrite Hg, Hv, Hn. simpl.
    rewrite Ht1. simpl. rewrite Hchat. simpl.
    now rewrite <- !app_assoc.
  - intros reply e3 t2 e4 s e5 st2 am c' Hchat Ht2 Hsc Hup.
    rewrite <- Hh in *.
    apply send_message_inr.
    replace (messages c ++ [um; am])
      with (messages (add_message (add_message c um) am)) in *
      by (simpl; now rewrite <- app_assoc).
    exact (turn_done self cid msg rt w c st1 ad e1 g v n t1 e2 reply e3 t2 e4
             s e5 st2 Hfind Han Hg Hv Hn Ht1 Hchat Ht2 Hsc Hup).
Qed.

(** C4: [__init__] binds no [course_repo]; so on a controller as
    constructed, [get_recommendations] on a conversation id the store holds
    ends in the [AttributeError] of that lookup, having made the one
    conversation lookup and nothing else: no call to the recommendation
    service, no store update, the store as it was. *)
Theorem get_recommendations_unbound_course_repo q ai sc rs cid w c :
  store w !! cid = Some c ->
  course_repo (__init__ (store_repository q) ai sc rs) = None
  /\ get_recommendations (__init__ (store_repository q) ai sc rs) cid w
     = (inl (AttributeError "course_repo"),
        {| store := store w; env := env w;
           calls := calls w ++ [CallFindById cid] |}).
Proof.
  intros Hc. split; [reflexivity |].
  unfold get_recommendations, bind, log, on_store. simpl.
  rewrite Hc. reflexivity.
Qed.

(** C9, as the code has it: [get_user_conversations] checks nothing.  For
    every [skip] and [limit], negative or zero included, it makes one
    [find_by_user_id] call with the arguments as given and ends the way that
    call ends. *)
Theorem get_user_conversations_passthrough self uid skip limit w :
  get_user_conversations self uid skip limit w
  = (fst (find_by_user_id (conversation_repo self) uid skip limit (store w)),
     {| store := snd (find_by_user_id (conversation_repo self)
                        uid skip limit (store w));
        env := env w;
        calls := calls w ++ [CallFindByUserId uid skip limit] |}).
Proof.
  unfold get_user_conversations, bind, log, on_store. simpl.
  destruct (find_by_user_id _ _ _ _ _) as [[e | cs] st]; reflexivity.
Qed.

(** *** The loop over the recommendations *)

(** The loop, run on lookups that all answer: one joined entry per
    recommendation, in order, one lookup call each, no write. *)
Lemma detail_recommendations_lookups self cr recs e ocs e' :
  course_repo self = Some cr ->
  course_lookups cr recs e ocs e' ->
  forall acc st cs,
    detail_recommendations self recs acc {| store := st; env := e; calls := cs |}
    = (inr (acc ++ zip_with join_course recs ocs),
       {| store := st; env := e';
          calls := cs ++ map (fun r => CallCourseById (course_id r)) recs |}).
Proof.
  intros Hcr Hlook.
  induction Hlook as [e | rec rest e oc e1 ocs e2 Hoc _ IH]; intros acc st cs.
  - simpl. unfold ret. now rewrite !app_nil_r.
  - simpl. unfold get_course_repo, bind, log, on_env, ret. rewrite Hcr. simpl.
    rewrite Hoc. rewrite IH. now rewrite <- !app_assoc.
Qed.

(** C10: on a controller whose [course_repo] attribute is bound, for a
    conversation the store holds, take a request in which the catalog listed
    the courses, the recommendation service generated [recs], and the lookup
    of each recommendation's course, in this very call, returned [ocs]:
    a course or absent.  The request returns one entry per recommendation
    and raises nothing, and it has stored the conversation with all of
    [recs] appended.  For a recommendation whose lookup returned absent the
    entry maps ['course'] to [None] and every other key to what
    [rec.to_dict()] maps it to. *)
Theorem get_recommendations_absent_course
    q ai sc rs cr cid w c courses e1 recs e2 ocs e3 :
  let self := set_course_repo (__init__ (store_repository q) ai sc rs) cr in
  store w !! cid = Some c ->
  course_find_by_level cr (level c) (env w) = (inr courses, e1) ->
  generate_recommendations rs c courses e1 = (inr recs, e2) ->
  course_lookups cr recs e2 ocs e3 ->
  get_recommendations self cid w
  = (inr (zip_with join_course recs ocs),
     {| store := <[cid := add_recommendations c recs]> (store w);
        env := e3;
        calls := calls w ++
          [ CallFindById cid;
            CallCoursesByLevel (level c);
            CallGenerate c courses;
            CallUpdate cid (add_recommendations c recs) ]
          ++ map (fun r => CallCourseById (course_id r)) recs |})
  /\ length (zip_with join_course recs ocs) = length recs
  /\ forall i rec, recs !! i = Some rec -> ocs !! i = Some None ->
       exists entry,
         zip_with join_course recs ocs !! i = Some entry
         /\ entry !! "course" = Some VNone
         /\ forall k, k ≠ "course" -> entry !! k = rec_to_dict rec !! k.
Proof.
  intros self Hc Hlvl Hgen Hlook.
  assert (Hlen : length ocs = length recs).
  { clear -Hlook. induction Hlook; simpl; congruence. }
  split; [| split].
  - unfold get_recommendations, get_course_repo, bind, log, on_store, on_env, ret.
    simpl. rewrite Hc. simpl. rewrite Hlvl. simpl. rewrite Hgen. simpl.
    rewrite Hc. simpl.
    rewrite (detail_recommendations_lookups self cr recs e2 ocs e3 eq_refl Hlook).
    now rewrite <- !app_assoc.
  - rewrite length_zip_with. lia.
  - intros i rec Hi Hnone.
    exists (join_course rec None). split; [| split].
    + rewrite lookup_zip_with, Hi. simpl. now rewrite Hnone.
    + unfold join_course. apply lookup_insert_eq.
    + intros k Hk. unfold join_course. now apply lookup_insert_ne.
Qed.

(** *** Further properties of [send_message] *)

(** On the modelled store, a turn that returns has written exactly one
    conversation: the loaded one with the two messages and the score. *)
Lemma send_message_inr_store q ai sc rs cid msg rt w res w' :
  send_message (__init__ (store_repository q) ai sc rs) cid msg rt w
    = (inr res, w') ->
  exists c um am s,
    store w !! cid = Some c
    /\ role um = "user" /\ content um = msg /\ is_Some (analysis um)
    /\ role am = "assistant" /\ analysis am = None
    /\ res = {[ "user_message" := JMessage um;
                "ai_message" := JMessage am;
                "overall_score" := JValue (score_to_dict s) ]}
    /\ store w' = <[cid := update_score (add_message (add_message c um) am) s]>
                    (store w)
    /\ exists cs, calls w' = calls w ++ cs
         /\ CallChat (get_chat_history c ++ [("user", msg)]) (topic c) (level c)
              ∈ cs.
Proof.
  intros H. apply send_message_inr in H.
  destruct H as [c st1 ad e1 g v n t1 e2 reply e3 t2 e4 s e5 st2 um am c1 c2 c3
                   Hfind Han Hg Hv Hn Ht1 Hchat Ht2 Hsc Hup].
  simpl in Hfind, Hup. injection Hfind as Hc <-.
  rewrite Hc in Hup. injection Hup as <-.
  exists c, um, am, s. simpl.
  do 8 (split; [first [assumption | reflexivity | (eexists; reflexivity)] |]).
  eexists. split; [reflexivity |].
  do 2 apply list_elem_of_further. subst c1.
  unfold get_chat_history, add_message. simpl. rewrite map_app. simpl.
  apply list_elem_of_here.
Qed.

(** On the modelled store, a turn that raises has written nothing. *)
Lemma send_message_inl_store q ai sc rs cid msg rt w err w' :
  send_message (__init__ (store_repository q) ai sc rs) cid msg rt w
    = (inl err, w') ->
  store w' = store w.
Proof.
  intros H. run_in H; injection H as <- <-; simpl.
  all: repeat match goal with
         | E : (_, _) = (_, _) |- _ => injection E as ? ?; subst
         end.
  all: reflexivity.
Qed.

(** X1: when the Analysis Capability raises, the turn ends in that
    exception right there: the Dialogue Capability and the scoring service
    are not called, the clock is not read, and no update is made. *)
Theorem send_message_analysis_failure self cid msg rt w c st err e1 :
  find_by_id (conversation_repo self) cid (store w) = (inr (Some c), st) ->
  analyze_message (ai_service self) msg (level c) (env w) = (inl err, e1) ->
  send_message self cid msg rt w
  = (inl err,
     {| store := st; env := e1;
        calls := calls w ++ [CallFindById cid; CallAnalyze msg (level c)] |}).
Proof.
  intros Hfind Han.
  unfold send_message, bind, log, on_store, on_env. simpl.
  rewrite Hfind. simpl. rewrite Han. simpl.
  now rewrite <- app_assoc.
Qed.

(** X2: when the analysis dictionary lacks one of the keys 'grammar',
    'vocabulary', 'naturalness', the turn ends in the [KeyError] of the first
    one missing, in that order; the Dialogue Capability is not called and no
    update is made. *)
Theorem send_message_missing_metric self cid msg rt w c st ad e1 key :
  find_by_id (conversation_repo self) cid (store w) = (inr (Some c), st) ->
  analyze_message (ai_service self) msg (level c) (env w) = (inr ad, e1) ->
  first_missing_metric ad = Some key ->
  send_message self cid msg rt w
  = (inl (KeyError key),
     {| store := st; env := e1;
        calls := calls w ++ [CallFindById cid; CallAnalyze msg (level c)] |}).
Proof.
  intros Hfind Han Hkey.
  unfold send_message, bind, log, on_store, on_env, getitem, ret, raise. simpl.
  rewrite Hfind. simpl. rewrite Han. simpl.
  unfold first_missing_metric in Hkey.
  destruct (ad !! "grammar"); simpl;
    [destruct (ad !! "vocabulary"); simpl;
       [destruct (ad !! "naturalness"); simpl; [discriminate |] |] |].
  all: injection Hkey as <-; now rewrite <- app_assoc.
Qed.

(** X3: when the scoring service raises, the turn ends in that exception
    after both capabilities were called: the reply is lost, no update is
    made and the store is as the lookup left it. *)
Theorem send_message_scoring_failure self cid msg rt w
    c st ad e1 g v n t1 e2 reply e3 t2 e4 err e5 :
  let um := user_message_of msg t1 g v n rt in
  let am := ai_message_of reply t2 in
  find_by_id (conversation_repo self) cid (store w) = (inr (Some c), st) ->
  analyze_message (ai_service self) msg (level c) (env w) = (inr ad, e1) ->
  ad !! "grammar" = Some g ->
  ad !! "vocabulary" = Some v ->
  ad !! "naturalness" = Some n ->
  utcnow e1 = (t1, e2) ->
  chat (ai_service self) (get_chat_history (add_message c um))
    (topic c) (level c) e2 = (inr reply, e3) ->
  utcnow e3 = (t2, e4) ->
  calculate_overall_score (scoring_service self)
    (messages c ++ [um; am]) e4 = (inl err, e5) ->
  send_message self cid msg rt w
  = (inl err,
     {| store := st; env := e5;
        calls := calls w ++
          [ CallFindById cid;
            CallAnalyze msg (level c);
            CallChat (get_chat_history (add_message c um)) (topic c) (level c);
            CallScore (messages c ++ [um; am]) ] |}).
Proof.
  intros um am Hfind Han Hg Hv Hn Ht1 Hchat Ht2 Hsc.
  subst um am. unfold user_message_of, ai_message_of in *.
  unfold send_message, bind, log, on_store, on_env, now, getitem, ret.
  simpl in *.
  rewrite Hfind. simpl. rewrite Han. simpl. rewrite Hg, Hv, Hn. simpl.
  rewrite Ht1. simpl. rewrite Hchat. simpl. rewrite Ht2. simpl.
  rewrite <- (app_assoc (messages c)). simpl. rewrite Hsc. simpl.
  now rewrite <- !app_assoc.
Qed.

Lemma store_lookup_insert (st : Store) k c : <[k := c]> st !! k = Some c.
Proof. unfold Store in *. apply lookup_insert_eq. Qed.

Lemma store_lookup_insert_ne (st : Store) k k' c :
  k ≠ k' -> <[k := c]> st !! k' = st !! k'.
Proof. unfold Store in *. apply lookup_insert_ne. Qed.

Lemma continues_refl c : continues c c.
Proof. now repeat split. Qed.

Lemma continues_turn c um am s :
  continues c (update_score (add_message (add_message c um) am) s).
Proof.
  repeat split. simpl. rewrite <- app_assoc. now apply prefix_app_r.
Qed.

(** X4: whatever a turn ends in, every conversation in the store is still
    there with the same owner, topic, level and recommendations, its earlier
    messages are kept in place and in order, and no conversation is created
    or deleted. *)
Theorem send_message_append_only q ai sc rs cid msg rt w r w' k :
  send_message (__init__ (store_repository q) ai sc rs) cid msg rt w = (r, w') ->
  option_Forall2 continues (store w !! k) (store w' !! k).
Proof.
  intros H. destruct r as [err | res].
  - apply send_message_inl_store in H. rewrite H.
    destruct (store w !! k); constructor. apply continues_refl.
  - apply send_message_inr_store in H.
    destruct H as (c & um & am & s & Hc & _ & _ & _ & _ & _ & _ & Hst & _).
    rewrite Hst. destruct (decide (cid = k)) as [<- | Hne].
    + rewrite store_lookup_insert, Hc. constructor. apply continues_turn.
    + rewrite store_lookup_insert_ne by assumption.
      destruct (store w !! k); constructor. apply continues_refl.
Qed.

(** X5: if in every stored conversation the assistant messages have no
    analysis and only user messages have one, the same holds after a turn,
    whatever it ends in. *)
Theorem send_message_keeps_annotation q ai sc rs cid msg rt w r w' :
  (forall k c, store w !! k = Some c -> Forall annotated (messages c)) ->
  send_message (__init__ (store_repository q) ai sc rs) cid msg rt w = (r, w') ->
  forall k c, store w' !! k = Some c -> Forall annotated (messages c).
Proof.
  intros Hinv H k c' Hk. destruct r as [err | res].
  - apply send_message_inl_store in H. rewrite H in Hk. now apply (Hinv k).
  - apply send_message_inr_store in H.
    destruct H as (c & um & am & s & Hc & Hru & _ & Hau & Hra & Haa & _ & Hst & _).
    rewrite Hst in Hk. destruct (decide (cid = k)) as [<- | Hne].
    + rewrite store_lookup_insert in Hk. injection Hk as <-. simpl.
      rewrite <- app_assoc. apply Forall_app. split; [now apply (Hinv cid) |].
      apply Forall_cons. split; [| apply Forall_cons; split; [| constructor]].
      * split; [intros Hr; rewrite Hru in Hr; discriminate | now intros _].
      * split; [now intros _ | intros [a Ha]; rewrite Haa in Ha; discriminate].
    + rewrite store_lookup_insert_ne in Hk by assumption. now apply (Hinv k).
Qed.

(** X6: what a turn returns is what it stored.  Right after a turn that
    returned, [get_conversation] finds the conversation; its last two
    messages are the returned user message and assistant message, its score
    is the one whose serialised form was returned, and the returned
    dictionary has these three keys and no other. *)
Theorem send_message_then_get_conversation q ai sc rs cid msg rt w res w' :
  let self := __init__ (store_repository q) ai sc rs in
  send_message self cid msg rt w = (inr res, w') ->
  exists c' earlier um am s,
    get_conversation self cid w'
      = (inr (Some c'),
         {| store := store w'; env := env w';
            calls := calls w' ++ [CallFindById cid] |})
    /\ messages c' = earlier ++ [um; am]
    /\ score c' = Some s
    /\ res !! "user_message" = Some (JMessage um)
    /\ res !! "ai_message" = Some (JMessage am)
    /\ res !! "overall_score" = Some (JValue (score_to_dict s))
    /\ dom res = ({[ "user_message"; "ai_message"; "overall_score" ]} : gset string).
Proof.
  intros self H. apply send_message_inr_store in H.
  destruct H as (c & um & am & s & Hc & _ & _ & _ & _ & _ & -> & Hst & _).
  exists (update_score (add_message (add_message c um) am) s),
    (messages c), um, am, s.
  split; [| split; [| split; [| split; [| split; [| split]]]]].
  - unfold get_conversation, bind, log, on_store. simpl.
    rewrite Hst, store_lookup_insert. reflexivity.
  - simpl. now rewrite <- app_assoc.
  - reflexivity.
  - reflexivity.
  - reflexivity.
  - reflexivity.
  - rewrite !dom_insert_L, ?dom_singleton_L, ?dom_empty_L. set_solver.
Qed.

(** X7: two turns in a row on one conversation append four messages in the
    order user, assistant, user, assistant.  In the second turn the Dialogue
    Capability is applied, in the world after the second analysis and clock
    reading, to the history of the conversation as it was before both turns
    followed by the first turn's user message, the first turn's reply and
    the second user message; what it gives there is the text of the second
    assistant message. *)
Theorem send_message_twice q ai sc rs cid m1 rt1 m2 rt2 w res1 w1 res2 w2 c :
  let self := __init__ (store_repository q) ai sc rs in
  store w !! cid = Some c ->
  send_message self cid m1 rt1 w = (inr res1, w1) ->
  send_message self cid m2 rt2 w1 = (inr res2, w2) ->
  exists u1 a1 u2 a2 c2 ad e1 t e2 e3,
    store w2 !! cid = Some c2
    /\ messages c2 = messages c ++ [u1; a1; u2; a2]
    /\ res1 !! "user_message" = Some (JMessage u1)
    /\ res1 !! "ai_message" = Some (JMessage a1)
    /\ res2 !! "user_message" = Some (JMessage u2)
    /\ res2 !! "ai_message" = Some (JMessage a2)
    /\ map role [u1; a1; u2; a2] = ["user"; "assistant"; "user"; "assistant"]
    /\ content u1 = m1 /\ content u2 = m2
    /\ analyze_message ai m2 (level c) (env w1) = (inr ad, e1)
    /\ utcnow e1 = (t, e2)
    /\ chat ai
         (get_chat_history c ++
            [("user", m1); ("assistant", content a1); ("user", m2)])
         (topic c) (level c) e2
       = (inr (content a2), e3)
    /\ CallChat (get_chat_history c ++
                   [("user", m1); ("assistant", content a1); ("user", m2)])
         (topic c) (level c)
       ∈ drop (length (calls w1)) (calls w2).
Proof.
  intros self Hc H1 H2.
  apply send_message_inr_store in H1.
  destruct H1 as (c0 & u1 & a1 & s1 & Hc0 & Hru1 & Hcu1 & _ & Hra1 & _ & -> & Hst1 & _).
  rewrite Hc in Hc0. injection Hc0 as <-.
  apply send_message_inr in H2.
  destruct H2 as [c1 st1 ad e1 g v n t1 e2 reply e3 t2 e4 s e5 st2 um am c1' c2 c3
                    Hfind Han Hg Hv Hn Ht1 Hchat Ht2 Hsc Hup].
  simpl in Hfind, Hup, Han, Hchat.
  rewrite Hst1, store_lookup_insert in Hfind. injection Hfind as <- <-.
  rewrite store_lookup_insert in Hup. injection Hup as <-.
  assert (Hh : get_chat_history c1'
               = get_chat_history c ++
                   [("user", m1); ("assistant", content a1); ("user", m2)]).
  { subst c1' um. unfold get_chat_history, add_message, update_score. simpl.
    rewrite !map_app. simpl. rewrite Hru1, Hcu1, Hra1.
    now rewrite <- !app_assoc. }
  exists u1, a1, um, am, c3, ad, e1, t1, e2, e3. simpl.
  split; [| split; [| split; [| split; [| split; [| split; [| split; [| split;
    [| split; [| split; [| split; [| split]]]]]]]]]]].
  - apply store_lookup_insert.
  - now rewrite <- !app_assoc.
  - reflexivity.
  - reflexivity.
  - reflexivity.
  - reflexivity.
  - now rewrite Hru1, Hra1.
  - assumption.
  - reflexivity.
  - exact Han.
  - exact Ht1.
  - rewrite <- Hh. exact Hchat.
  - rewrite drop_app_length. rewrite <- Hh.
    do 2 apply list_elem_of_further. apply list_elem_of_here.
Qed.

(** *** Further properties of [get_recommendations] *)

(** The loop over the recommendations never writes to the store, and when
    it returns it has added one entry per recommendation, in order. *)
Lemma detail_recommendations_inv self (recs : list Recommendation) :
  forall acc w r w',
    detail_recommendations self recs acc w = (r, w') ->
    store w' = store w
    /\ forall d, r = inr d ->
         exists ocs, length ocs = length recs
                     /\ d = acc ++ zip_with join_course recs ocs.
Proof.
  induction recs as [| rec rest IH]; intros acc w r w' H; simpl in H.
  - unfold ret in H. injection H as <- <-. split; [reflexivity |].
    intros d [= <-]. exists []. now rewrite app_nil_r.
  - unfold get_course_repo, bind, log, on_env, ret, raise in H.
    destruct (course_repo self) as [cr |]; simpl in H;
      [| injection H as <- <-; split; [reflexivity | discriminate]].
    destruct (course_find_by_id cr (course_id rec) (env w)) as [[err | oc] e'];
      simpl in H; [injection H as <- <-; split; [reflexivity | discriminate] |].
    apply IH in H. destruct H as [Hst Hd]. split; [exact Hst |].
    intros d Hr. destruct (Hd d Hr) as (ocs & Hlen & ->).
    exists (oc :: ocs). simpl. rewrite Hlen. split; [reflexivity |].
    now rewrite <- app_assoc.
Qed.

(** How a recommendation request leaves the modelled store: as it was, or
    with the recommendations appended to the one conversation. *)
Lemma get_recommendations_store q ai sc rs cr cid w r w' :
  get_recommendations (set_course_repo (__init__ (store_repository q) ai sc rs) cr)
    cid w = (r, w') ->
  (store w' = store w /\ forall d, r <> inr d)
  \/ exists c recs,
       store w !! cid = Some c
       /\ store w' = <[cid := add_recommendations c recs]> (store w)
       /\ forall d, r = inr d ->
            exists ocs, length ocs = length recs
                        /\ d = zip_with join_course recs ocs.
Proof.
  intros H.
  unfold get_recommendations, get_course_repo, bind, log, on_store, on_env,
    ret, raise in H. simpl in H.
  destruct (store w !! cid) as [c |] eqn:Hc; simpl in H;
    [| injection H as <- <-; left; split; [reflexivity | discriminate]].
  destruct (course_find_by_level cr (level c) (env w)) as [[err | courses] e1];
    simpl in H; [injection H as <- <-; left; split; [reflexivity | discriminate] |].
  destruct (generate_recommendations rs c courses e1) as [[err | recs] e2];
    simpl in H; [injection H as <- <-; left; split; [reflexivity | discriminate] |].
  rewrite Hc in H. simpl in H.
  apply detail_recommendations_inv in H. destruct H as [Hst Hd]. simpl in Hst.
  right. exists c, recs. split; [reflexivity |]. split; [exact Hst |].
  intros d Hr. destruct (Hd d Hr) as (ocs & Hlen & ->). now exists ocs.
Qed.

(** X8: for a conversation id the repository does not find,
    [get_recommendations] ends in the not-found [ValueError] before it reads
    [self.course_repo]: this is so on a controller as constructed too, and no
    course is looked up, nothing is generated, no update is made. *)
Theorem get_recommendations_absent_id self cid w st :
  find_by_id (conversation_repo self) cid (store w) = (inr None, st) ->
  get_recommendations self cid w
  = (inl (ValueError ("Conversation " +:+ cid +:+ " not found")),
     {| store := st; env := env w; calls := calls w ++ [CallFindById cid] |}).
Proof.
  intros Hfind. unfold get_recommendations, bind, log, on_store. simpl.
  rewrite Hfind. reflexivity.
Qed.

(** X9: the recommendations are stored before the course details are
    fetched.  When the first course lookup raises, the request ends in that
    exception and returns nothing, yet the stored conversation already has
    the new recommendations appended. *)
Theorem get_recommendations_lookup_failure
    q ai sc rs cr cid w c courses e1 rec recs e2 err e3 :
  let self := set_course_repo (__init__ (store_repository q) ai sc rs) cr in
  store w !! cid = Some c ->
  course_find_by_level cr (level c) (env w) = (inr courses, e1) ->
  generate_recommendations rs c courses e1 = (inr (rec :: recs), e2) ->
  course_find_by_id cr (course_id rec) e2 = (inl err, e3) ->
  exists w',
    get_recommendations self cid w = (inl err, w')
    /\ store w' !! cid = Some (add_recommendations c (rec :: recs))
    /\ recommendations (add_recommendations c (rec :: recs))
       = recommendations c ++ rec :: recs.
Proof.
  intros self Hc Hlvl Hgen Hlook.
  eexists. split; [| split].
  - unfold get_recommendations, get_course_repo, bind, log, on_store, on_env, ret.
    simpl. rewrite Hc. simpl. rewrite Hlvl. simpl. rewrite Hgen. simpl.
    rewrite Hc. simpl.
    unfold get_course_repo, bind, log, on_env, ret. simpl.
    rewrite Hlook. reflexivity.
  - simpl. apply store_lookup_insert.
  - reflexivity.
Qed.

(** X10: when the recommendation service has nothing to suggest, the
    request still applies the repository's update, to the conversation as it
    was loaded, and then returns the empty list; the world it ends in has
    the store that update gave and the outside world the recommendation
    service left.  On the modelled store that update changes nothing. *)
Theorem get_recommendations_nothing_to_suggest
    self cr cid w c st1 courses e1 e2 st2 :
  course_repo self = Some cr ->
  find_by_id (conversation_repo self) cid (store w) = (inr (Some c), st1) ->
  course_find_by_level cr (level c) (env w) = (inr courses, e1) ->
  generate_recommendations (recommendation_service self) c courses e1
    = (inr [], e2) ->
  update (conversation_repo self) cid c st1 = (inr tt, st2) ->
  get_recommendations self cid w
  = (inr [],
     {| store := st2; env := e2;
        calls := calls w ++
          [ CallFindById cid;
            CallCoursesByLevel (level c);
            CallGenerate c courses;
            CallUpdate cid c ] |})
  /\ (forall q, conversation_repo self = store_repository q -> st2 = store w).
Proof.
  intros Hcr Hfind Hlvl Hgen Hup.
  assert (Hsame : add_recommendations c [] = c).
  { destruct c. unfold add_recommendations. simpl. now rewrite app_nil_r. }
  split.
  - unfold get_recommendations, get_course_repo, bind, log, on_store, on_env, ret.
    simpl. rewrite Hfind. simpl. rewrite Hcr. simpl. rewrite Hlvl. simpl.
    rewrite Hgen. simpl. rewrite Hsame, Hup. simpl.
    now rewrite <- !app_assoc.
  - intros q Hq. rewrite Hq in Hfind, Hup. simpl in Hfind, Hup.
    injection Hfind as Hc <-. rewrite Hc in Hup. injection Hup as <-.
    unfold Store in *. now apply insert_id.
Qed.

(** X11: when the recommendation service raises, the request ends in that
    exception with the store untouched: no update call and no course lookup
    by id is made. *)
Theorem get_recommendations_generation_failure
    q ai sc rs cr cid w c courses e1 err e2 :
  let self := set_course_repo (__init__ (store_repository q) ai sc rs) cr in
  store w !! cid = Some c ->
  course_find_by_level cr (level c) (env w) = (inr courses, e1) ->
  generate_recommendations rs c courses e1 = (inl err, e2) ->
  get_recommendations self cid w
  = (inl err,
     {| store := store w; env := e2;
        calls := calls w ++
          [ CallFindById cid;
            CallCoursesByLevel (level c);
            CallGenerate c courses ] |}).
Proof.
  intros self Hc Hlvl Hgen.
  unfold get_recommendations, get_course_repo, bind, log, on_store, on_env, ret.
  simpl. rewrite Hc. simpl. rewrite Hlvl. simpl. rewrite Hgen. simpl.
  now rewrite <- !app_assoc.
Qed.

Lemma recommends_more_refl c : recommends_more c c.
Proof. now repeat split. Qed.

Lemma recommends_more_add c recs : recommends_more c (add_recommendations c recs).
Proof. repeat split. simpl. now apply prefix_app_r. Qed.

(** X12: whenever a recommendation request returns, the stored
    conversation has gained some recommendations at the end, and the list
    returned has one entry per gained recommendation, in the same order;
    every entry has a ['course'] key, and under every other key it has
    what [rec.to_dict()] has. *)
Theorem get_recommendations_entries q ai sc rs cr cid w c detailed w' :
  let self := set_course_repo (__init__ (store_repository q) ai sc rs) cr in
  store w !! cid = Some c ->
  get_recommendations self cid w = (inr detailed, w') ->
  exists recs,
    store w' !! cid = Some (add_recommendations c recs)
    /\ length detailed = length recs
    /\ forall i entry, detailed !! i = Some entry ->
         exists rec,
           recs !! i = Some rec
           /\ is_Some (entry !! "course")
           /\ forall k, k ≠ "course" -> entry !! k = rec_to_dict rec !! k.
Proof.
  intros self Hc H. apply get_recommendations_store in H.
  destruct H as [[_ Hno] | (c0 & recs & Hc0 & Hst & Hd)];
    [now destruct (Hno detailed) |].
  rewrite Hc in Hc0. injection Hc0 as <-.
  destruct (Hd detailed eq_refl) as (ocs & Hlen & ->).
  exists recs. split; [| split].
  - rewrite Hst. apply store_lookup_insert.
  - rewrite length_zip_with. lia.
  - intros i entry Hi. rewrite lookup_zip_with in Hi.
    destruct (recs !! i) as [rec |]; [| discriminate]. simpl in Hi.
    destruct (ocs !! i) as [oc |]; [| discriminate]. simpl in Hi.
    injection Hi as <-. exists rec. split; [reflexivity |].
    unfold join_course. split.
    + rewrite lookup_insert_eq. eauto.
    + intros k Hk. now apply lookup_insert_ne.
Qed.

(** A recommendation request that returns, step by step, on the modelled
    store. *)
Lemma get_recommendations_inr q ai sc rs cr cid w c detailed w' :
  store w !! cid = Some c ->
  get_recommendations (set_course_repo (__init__ (store_repository q) ai sc rs) cr)
    cid w = (inr detailed, w') ->
  exists courses e1 recs e2 ocs,
    course_find_by_level cr (level c) (env w) = (inr courses, e1)
    /\ generate_recommendations rs c courses e1 = (inr recs, e2)
    /\ length ocs = length recs
    /\ detailed = zip_with join_course recs ocs
    /\ store w' = <[cid := add_recommendations c recs]> (store w).
Proof.
  intros Hc H.
  unfold get_recommendations, get_course_repo, bind, log, on_store, on_env,
    ret, raise in H. simpl in H.
  rewrite Hc in H. simpl in H.
  destruct (course_find_by_level cr (level c) (env w))
    as [[err | courses] e1] eqn:Hlvl;
    simpl in H; [discriminate |].
  destruct (generate_recommendations rs c courses e1)
    as [[err | recs] e2] eqn:Hgen;
    simpl in H; [discriminate |].
  rewrite Hc in H. simpl in H.
  apply detail_recommendations_inv in H. destruct H as [Hst Hd]. simpl in Hst.
  destruct (Hd detailed eq_refl) as (ocs & Hlen & ->).
  exists courses, e1, recs, e2, ocs.
  split; [reflexivity |]. split; [exact Hgen |]. split; [exact Hlen |].
  split; [reflexivity | exact Hst].
Qed.

(** X13: take two recommendation requests in a row that both return.
    The first stores what the recommendation service generated for the
    conversation as loaded; the second is given the conversation with those
    already appended, and stores what the service generated for it after
    them.  The conversation ends with the recommendations it had, then those
    of the first request, then those of the second, nothing replaced or
    merged, messages and score as they were; and each request returns the
    entries of its own recommendations, in order. *)
Theorem get_recommendations_twice q ai sc rs cr cid w c d1 w1 d2 w2 :
  let self := set_course_repo (__init__ (store_repository q) ai sc rs) cr in
  store w !! cid = Some c ->
  get_recommendations self cid w = (inr d1, w1) ->
  get_recommendations self cid w1 = (inr d2, w2) ->
  exists courses1 e1 recs1 e1' ocs1 courses2 e2 recs2 e2' ocs2,
    course_find_by_level cr (level c) (env w) = (inr courses1, e1)
    /\ generate_recommendations rs c courses1 e1 = (inr recs1, e1')
    /\ length ocs1 = length recs1
    /\ d1 = zip_with join_course recs1 ocs1
    /\ course_find_by_level cr (level c) (env w1) = (inr courses2, e2)
    /\ generate_recommendations rs (add_recommendations c recs1) courses2 e2
       = (inr recs2, e2')
    /\ length ocs2 = length recs2
    /\ d2 = zip_with join_course recs2 ocs2
    /\ store w2 !! cid
       = Some {| user_id := user_id c; topic := topic c; level := level c;
                 messages := messages c; score := score c;
                 recommendations := recommendations c ++ recs1 ++ recs2 |}.
Proof.
  intros self Hc H1 H2.
  destruct (get_recommendations_inr _ _ _ _ _ _ _ _ _ _ Hc H1)
    as (courses1 & e1 & recs1 & e1' & ocs1 & Hl1 & Hg1 & Hn1 & Hd1 & Hst1).
  assert (Hc1 : store w1 !! cid = Some (add_recommendations c recs1)).
  { rewrite Hst1. apply store_lookup_insert. }
  destruct (get_recommendations_inr _ _ _ _ _ _ _ _ _ _ Hc1 H2)
    as (courses2 & e2 & recs2 & e2' & ocs2 & Hl2 & Hg2 & Hn2 & Hd2 & Hst2).
  exists courses1, e1, recs1, e1', ocs1, courses2, e2, recs2, e2', ocs2.
  do 8 (split; [assumption |]).
  rewrite Hst2, store_lookup_insert. unfold add_recommendations. simpl.
  now rewrite <- app_assoc.
Qed.

(** How a recommendation request leaves the modelled store, whatever the
    controller's [course_repo] slot holds. *)
Lemma get_recommendations_store_any self q cid w r w' :
  conversation_repo self = store_repository q ->
  get_recommendations self cid w = (r, w') ->
  store w' = store w
  \/ exists c recs,
       store w !! cid = Some c
       /\ store w' = <[cid := add_recommendations c recs]> (store w).
Proof.
  intros Hq H.
  unfold get_recommendations, get_course_repo, bind, log, on_store, on_env,
    ret, raise in H. rewrite Hq in H. simpl in H.
  destruct (store w !! cid) as [c |] eqn:Hc; simpl in H;
    [| injection H as <- <-; now left].
  destruct (course_repo self) as [cr |] eqn:Hcr; simpl in H;
    [| injection H as <- <-; now left].
  destruct (course_find_by_level cr (level c) (env w)) as [[err | courses] e1];
    simpl in H; [injection H as <- <-; now left |].
  destruct (generate_recommendations (recommendation_service self) c courses e1)
    as [[err | recs] e2];
    simpl in H; [injection H as <- <-; now left |].
  rewrite Hc in H. simpl in H.
  apply detail_recommendations_inv in H. destruct H as [Hst _]. simpl in Hst.
  right. now exists c, recs.
Qed.

(** X14: whatever a recommendation request ends in, on the controller as
    constructed (where it ends in [AttributeError] or the not-found
    [ValueError]) as on one with a catalog attached, every conversation in
    the store keeps its owner, topic, level, messages and score, and its
    earlier recommendations stay in place and in order; no conversation is
    created or deleted. *)
Theorem get_recommendations_only_adds self q cid w r w' k :
  conversation_repo self = store_repository q ->
  get_recommendations self cid w = (r, w') ->
  option_Forall2 recommends_more (store w !! k) (store w' !! k).
Proof.
  intros Hq H. apply (get_recommendations_store_any self q) in H; [| exact Hq].
  destruct H as [-> | (c & recs & Hc & ->)].
  - destruct (store w !! k); constructor. apply recommends_more_refl.
  - destruct (decide (cid = k)) as [<- | Hne].
    + rewrite store_lookup_insert, Hc. constructor. apply recommends_more_add.
    + rewrite store_lookup_insert_ne by assumption.
      destruct (store w !! k); constructor. apply recommends_more_refl.
Qed.

End Properties.

(** ** The theorems at work on the small deployment *)

Section Runs.
#[local] Existing Instance demo.

(** The turn of [demo_turn], evaluated: what is stored and what is called. *)
Example demo_turn_stored :
  store (snd demo_turn) !! "c1"
  = Some {| user_id := "u1"; topic := "travel"; level := "N4";
            messages := messages demo_conversation ++
              [ user_message_of "ohayou" 2%nat 60%Z 90%Z 75%Z (Some 1200%Z);
                ai_message_of "hai" 3%nat ];
            score := Some 4%Z; recommendations := [] |}.
Proof. reflexivity. Qed.

Example demo_turn_calls :
  map is_effect (calls (snd demo_turn)) = [false; true; true; false; true].
Proof. reflexivity. Qed.

(** With the Dialogue Capability down the same request leaves the store. *)
Example demo_turn_down_store :
  store (snd (send_message demo_controller_down "c1" "ohayou" (Some 1200%Z)
                demo_world))
  = store demo_world.
Proof. reflexivity. Qed.

Lemma send_message_absent_id_witness :
  store demo_world !! "c9" = None
  /\ @send_message demo demo_controller "c9" "ohayou" None demo_world
     = (inl (ValueError "Conversation c9 not found"),
        {| store := store demo_world; env := 2%nat;
           calls := [CallFindById "c9"] |}).
Proof.
  split; [reflexivity |].
  apply (@send_message_absent_id demo). reflexivity.
Defined.

Lemma send_message_call_sequence_witness :
  exists c st1 ad e1 g v n t1 e2 reply e3 t2 e4 s e5 st2,
    let um := user_message_of "ohayou" t1 g v n (Some 1200%Z) in
    let am := ai_message_of reply t2 in
    let c' := update_score (add_message (add_message c um) am) s in
    find_by_id demo_repo "c1" (store demo_world) = (inr (Some c), st1)
    /\ analyze_message demo_ai "ohayou" (level c) (env demo_world) = (inr ad, e1)
    /\ ad !! "grammar" = Some g
    /\ ad !! "vocabulary" = Some v
    /\ ad !! "naturalness" = Some n
    /\ utcnow e1 = (t1, e2)
    /\ chat demo_ai (get_chat_history (add_message c um))
         (topic c) (level c) e2 = (inr reply, e3)
    /\ utcnow e3 = (t2, e4)
    /\ calculate_overall_score demo_scoring
         (messages (add_message (add_message c um) am)) e4 = (inr s, e5)
    /\ update demo_repo "c1" c' st1 = (inr tt, st2)
    /\ snd demo_turn
       = {| store := st2; env := e5;
            calls := calls demo_world ++
              [ CallFindById "c1";
                CallAnalyze "ohayou" (level c);
                CallChat (get_chat_history (add_message c um))
                  (topic c) (level c);
                CallScore (messages (add_message (add_message c um) am));
                CallUpdate "c1" c' ] |}
    /\ List.filter is_effect
         (drop (length (calls demo_world)) (calls (snd demo_turn)))
       = [ CallAnalyze "ohayou" (level c);
           CallChat (get_chat_history (add_message c um)) (topic c) (level c);
           CallUpdate "c1" c' ].
Proof.
  apply (@send_message_call_sequence demo demo_controller "c1" "ohayou"
           (Some 1200%Z) demo_world demo_turn_result (snd demo_turn)).
  reflexivity.
Defined.

Lemma send_message_failure_keeps_store_witness :
  send_message demo_controller_down "c1" "ohayou" None demo_world
  = (inl (Raised "dialogue unavailable"),
     {| store := store demo_world; env := 3%nat;
        calls := [ CallFindById "c1";
                   CallAnalyze "ohayou" "N4";
                   CallChat [ ("user", "konnichiwa"); ("assistant", "hai");
                              ("user", "ohayou") ] "travel" "N4" ] |})
  /\ store (snd (send_message demo_controller_down "c1" "ohayou" None demo_world))
     = store demo_world.
Proof.
  pose proof (@send_message_failure_keeps_store demo (fun _ _ _ _ => inr [])
                demo_ai_down demo_scoring demo_recommender
                "c1" "ohayou" None demo_world) as [Hchat Hany].
  split.
  - apply (Hchat demo_conversation demo_analysis 2%nat 60%Z 90%Z 75%Z
             2%nat 3%nat (Raised "dialogue unavailable") 3%nat);
      reflexivity.
  - apply (Hany (Raised "dialogue unavailable")). reflexivity.
Defined.

Lemma send_message_appends_two_and_rescores_witness :
  store demo_world !! "c1" = Some demo_conversation
  /\ exists um am a s ad e1 e4 e5,
    role um = "user" /\ content um = "ohayou" /\ analysis um = Some a /\
    analyze_message demo_ai "ohayou" (level demo_conversation) (env demo_world)
      = (inr ad, e1) /\
    ad !! "grammar" = Some (grammar a) /\
    ad !! "vocabulary" = Some (vocabulary a) /\
    ad !! "naturalness" = Some (naturalness a) /\
    role am = "assistant" /\ analysis am = None /\
    calculate_overall_score demo_scoring
      (messages demo_conversation ++ [um; am]) e4 = (inr s, e5) /\
    store (snd demo_turn) =
      <["c1" := {| user_id := "u1"; topic := "travel"; level := "N4";
                   messages := messages demo_conversation ++ [um; am];
                   score := Some s;
                   recommendations := [] |}]> (store demo_world).
Proof.
  split; [reflexivity |].
  apply (@send_message_appends_two_and_rescores demo (fun _ _ _ _ => inr [])
           demo_ai demo_scoring demo_recommender "c1" "ohayou" (Some 1200%Z)
           demo_world demo_turn_result (snd demo_turn) demo_conversation);
    reflexivity.
Defined.



Lemma send_message_chat_arguments_witness :
  send_message demo_controller_down "c1" "ohayou" (Some 1200%Z) demo_world
  = (inl (Raised "dialogue unavailable"),
     {| store := store demo_world; env := 3%nat;
        calls :=
          [ CallFindById "c1";
            CallAnalyze "ohayou" "N4";
            CallChat [ ("user", "konnichiwa"); ("assistant", "hai");
                       ("user", "ohayou") ] "travel" "N4" ] |})
  /\ fst demo_turn
     = inr {[ "user_message" :=
                JMessage (user_message_of "ohayou" 2%nat 60%Z 90%Z 75%Z
                            (Some 1200%Z));
              "ai_message" := JMessage (ai_message_of "hai" 3%nat);
              "overall_score" := JValue (Some "score") ]}.
Proof.
  split.
  - destruct (@send_message_chat_arguments demo demo_controller_down
                "c1" "ohayou" (Some 1200%Z) demo_world demo_conversation
                (store demo_world) demo_analysis 2%nat 60%Z 90%Z 75%Z
                2%nat 3%nat eq_refl eq_refl eq_refl eq_refl eq_refl eq_refl)
      as (_ & Hraise & _).
    apply (Hraise (Raised "dialogue unavailable") 3%nat). reflexivity.
  - destruct (@send_message_chat_arguments demo demo_controller
                "c1" "ohayou" (Some 1200%Z) demo_world demo_conversation
                (store demo_world) demo_analysis 2%nat 60%Z 90%Z 75%Z
                2%nat 3%nat eq_refl eq_refl eq_refl eq_refl eq_refl eq_refl)
      as (_ & _ & Hreply).
    unfold demo_turn.
    rewrite (Hreply "hai" 3%nat 3%nat 4%nat 4%Z 4%nat (store (snd demo_turn))
               eq_refl eq_refl eq_refl eq_refl).
    reflexivity.
Defined.

Lemma get_recommendations_unbound_course_repo_witness :
  store demo_world !! "c1" = Some demo_conversation
  /\ course_repo demo_controller = None
  /\ get_recommendations demo_controller "c1" demo_world
     = (inl (AttributeError "course_repo"),
        {| store := store demo_world; env := 2%nat;
           calls := [CallFindById "c1"] |}).
Proof.
  split; [reflexivity |].
  apply (@get_recommendations_unbound_course_repo demo (fun _ _ _ _ => inr [])
           demo_ai demo_scoring demo_recommender "c1" demo_world
           demo_conversation).
  reflexivity.
Defined.

Lemma get_recommendations_absent_course_witness :
  get_recommendations (set_course_repo demo_controller demo_courses)
    "c1" demo_world
  = (inr (zip_with join_course ["kanji-1"; "gone"] [Some "kanji-1"; None]),
     {| store := <["c1" := add_recommendations demo_conversation
                              ["kanji-1"; "gone"]]> (store demo_world);
        env := 2%nat;
        calls :=
          [ CallFindById "c1";
            CallCoursesByLevel "N4";
            CallGenerate demo_conversation ["kanji-1"];
            CallUpdate "c1" (add_recommendations demo_conversation
                               ["kanji-1"; "gone"]);
            CallCourseById "kanji-1";
            CallCourseById "gone" ] |})
  /\ exists entry,
       zip_with join_course ["kanji-1"; "gone"] [Some "kanji-1"; None] !! 1%nat
         = Some entry
       /\ entry !! "course" = Some None
       /\ forall k, k ≠ "course" -> entry !! k = rec_to_dict "gone" !! k.
Proof.
  assert (Hlook : course_lookups demo_courses ["kanji-1"; "gone"] 2%nat
                    [Some "kanji-1"; None] 2%nat).
  { apply (course_lookups_cons demo_courses "kanji-1" ["gone"] 2%nat
             (Some "kanji-1") 2%nat [None] 2%nat eq_refl).
    apply (course_lookups_cons demo_courses "gone" [] 2%nat
             None 2%nat [] 2%nat eq_refl).
    apply course_lookups_nil. }
  destruct (@get_recommendations_absent_course demo (fun _ _ _ _ => inr [])
              demo_ai demo_scoring demo_recommender demo_courses
              "c1" demo_world demo_conversation ["kanji-1"] 2%nat
              ["kanji-1"; "gone"] 2%nat [Some "kanji-1"; None] 2%nat
              eq_refl eq_refl eq_refl Hlook)
    as (Hrun & _ & Hentry).
  split; [exact Hrun |].
  exact (Hentry 1%nat "gone" eq_refl eq_refl).
Defined.

(** C3, on the controller as constructed: the recommendation request for a
    conversation the store holds ends in [AttributeError]; no course is
    loaded, the recommendation service is not called, nothing is appended or
    stored, and nothing is returned. *)
Example get_recommendations_constructed_controller :
  store demo_world !! "c1" = Some demo_conversation
  /\ get_recommendations demo_controller "c1" demo_world
     = (inl (AttributeError "course_repo"),
        {| store := store demo_world; env := 2%nat;
           calls := [CallFindById "c1"] |}).
Proof. split; reflexivity. Qed.

(** C9, counterexample: with [skip = -1] and [limit = 0] the call is not
    turned down before the store: it goes to the repository. *)
Lemma get_user_conversations_not_rejected :
  ((-1 < 0)%Z /\ (0 <= 0)%Z)
  /\ get_user_conversations demo_controller "u1" (-1) 0 demo_world
     = (inr [],
        {| store := store demo_world; env := 2%nat;
           calls := [CallFindByUserId "u1" (-1) 0] |})
  /\ ~ rejected_before_store
        (get_user_conversations demo_controller "u1" (-1) 0) demo_world.
Proof.
  split; [lia |]. split; [reflexivity |].
  intros (e & w' & Hrun & _). discriminate Hrun.
Qed.

(** *** The further properties on the small deployment *)

Lemma send_message_analysis_failure_witness :
  send_message (__init__ demo_repo demo_ai_blind demo_scoring demo_recommender)
    "c1" "ohayou" None demo_world
  = (inl (Raised "analysis unavailable"),
     {| store := store demo_world; env := 2%nat;
        calls := [CallFindById "c1"; CallAnalyze "ohayou" "N4"] |}).
Proof.
  apply (@send_message_analysis_failure demo
           (__init__ demo_repo demo_ai_blind demo_scoring demo_recommender)
           "c1" "ohayou" None demo_world demo_conversation);
    reflexivity.
Defined.

Lemma send_message_missing_metric_witness :
  send_message (__init__ demo_repo demo_ai_partial demo_scoring demo_recommender)
    "c1" "ohayou" None demo_world
  = (inl (KeyError "vocabulary"),
     {| store := store demo_world; env := 2%nat;
        calls := [CallFindById "c1"; CallAnalyze "ohayou" "N4"] |}).
Proof.
  apply (@send_message_missing_metric demo
           (__init__ demo_repo demo_ai_partial demo_scoring demo_recommender)
           "c1" "ohayou" None demo_world demo_conversation (store demo_world)
           {[ "grammar" := 60%Z; "naturalness" := 75%Z ]});
    reflexivity.
Defined.

Lemma send_message_scoring_failure_witness :
  send_message (__init__ demo_repo demo_ai demo_scoring_down demo_recommender)
    "c1" "ohayou" None demo_world
  = (inl (Raised "scoring failed"),
     {| store := store demo_world; env := 4%nat;
        calls :=
          [ CallFindById "c1";
            CallAnalyze "ohayou" "N4";
            CallChat [ ("user", "konnichiwa"); ("assistant", "hai");
                       ("user", "ohayou") ] "travel" "N4";
            CallScore (messages demo_conversation ++
                         [ user_message_of "ohayou" 2%nat 60%Z 90%Z 75%Z None;
                           ai_message_of "hai" 3%nat ]) ] |}).
Proof.
  apply (@send_message_scoring_failure demo
           (__init__ demo_repo demo_ai demo_scoring_down demo_recommender)
           "c1" "ohayou" None demo_world demo_conversation (store demo_world)
           demo_analysis 2%nat 60%Z 90%Z 75%Z 2%nat 3%nat "hai" 3%nat 3%nat
           4%nat (Raised "scoring failed") 4%nat);
    reflexivity.
Defined.

Lemma send_message_append_only_witness :
  option_Forall2 continues
    (store demo_world !! "c1") (store (snd demo_turn) !! "c1").
Proof.
  apply (@send_message_append_only demo (fun _ _ _ _ => inr [])
           demo_ai demo_scoring demo_recommender "c1" "ohayou" (Some 1200%Z)
           demo_world (fst demo_turn) (snd demo_turn) "c1").
  reflexivity.
Defined.

Lemma demo_world_annotated k (c : Conversation) :
  store demo_world !! k = Some c -> Forall annotated (messages c).
Proof.
  intros Hk. unfold demo_world in Hk. cbn [store] in Hk. unfold Store in Hk.
  apply lookup_singleton_Some in Hk as [_ <-].
  apply Forall_cons. split; [| apply Forall_cons; split; [| constructor]].
  - split; [discriminate | reflexivity].
  - split; [reflexivity | intros [a Ha]; discriminate Ha].
Defined.

Lemma send_message_keeps_annotation_witness :
  exists c : Conversation,
    store demo_world1 !! "c1" = Some c
    /\ length (messages c) = 4%nat
    /\ Forall annotated (messages c).
Proof.
  eexists. split; [reflexivity |]. split; [reflexivity |].
  apply (@send_message_keeps_annotation demo (fun _ _ _ _ => inr [])
           demo_ai demo_scoring demo_recommender "c1" "ohayou" (Some 1200%Z)
           demo_world (fst demo_turn) demo_world1 demo_world_annotated)
    with (k := "c1");
    reflexivity.
Defined.

Lemma send_message_then_get_conversation_witness :
  exists c' earlier um am s,
    get_conversation demo_controller "c1" (snd demo_turn)
      = (inr (Some c'),
         {| store := store (snd demo_turn); env := env (snd demo_turn);
            calls := calls (snd demo_turn) ++ [CallFindById "c1"] |})
    /\ messages c' = earlier ++ [um; am]
    /\ score c' = Some s
    /\ demo_turn_result !! "user_message" = Some (JMessage um)
    /\ demo_turn_result !! "ai_message" = Some (JMessage am)
    /\ demo_turn_result !! "overall_score" = Some (JValue (score_to_dict s))
    /\ dom demo_turn_result
       = ({[ "user_message"; "ai_message"; "overall_score" ]} : gset string).
Proof.
  apply (@send_message_then_get_conversation demo (fun _ _ _ _ => inr [])
           demo_ai demo_scoring demo_recommender "c1" "ohayou" (Some 1200%Z)
           demo_world demo_turn_result (snd demo_turn)).
  reflexivity.
Defined.

Lemma send_message_twice_witness :
  exists u1 a1 u2 a2 c2 ad e1 t e2 e3,
    store (snd demo_turn2) !! "c1" = Some c2
    /\ messages c2 = messages demo_conversation ++ [u1; a1; u2; a2]
    /\ demo_turn_result !! "user_message" = Some (JMessage u1)
    /\ demo_turn_result !! "ai_message" = Some (JMessage a1)
    /\ demo_turn2_result !! "user_message" = Some (JMessage u2)
    /\ demo_turn2_result !! "ai_message" = Some (JMessage a2)
    /\ map role [u1; a1; u2; a2] = ["user"; "assistant"; "user"; "assistant"]
    /\ content u1 = "ohayou" /\ content u2 = "arigatou"
    /\ analyze_message demo_ai "arigatou" (level demo_conversation)
         (env demo_world1) = (inr ad, e1)
    /\ utcnow e1 = (t, e2)
    /\ chat demo_ai
         (get_chat_history demo_conversation ++
            [("user", "ohayou"); ("assistant", content a1); ("user", "arigatou")])
         (topic demo_conversation) (level demo_conversation) e2
       = (inr (content a2), e3)
    /\ CallChat (get_chat_history demo_conversation ++
                   [ ("user", "ohayou"); ("assistant", content a1);
                     ("user", "arigatou") ])
         (topic demo_conversation) (level demo_conversation)
       ∈ drop (length (calls demo_world1)) (calls (snd demo_turn2)).
Proof.
  apply (@send_message_twice demo (fun _ _ _ _ => inr [])
           demo_ai demo_scoring demo_recommender "c1"
           "ohayou" (Some 1200%Z) "arigatou" None
           demo_world demo_turn_result demo_world1
           demo_turn2_result (snd demo_turn2) demo_conversation);
    reflexivity.
Defined.

Lemma get_recommendations_absent_id_witness :
  get_recommendations demo_controller "c9" demo_world
  = (inl (ValueError "Conversation c9 not found"),
     {| store := store demo_world; env := 2%nat;
        calls := [CallFindById "c9"] |}).
Proof.
  apply (@get_recommendations_absent_id demo demo_controller "c9" demo_world).
  reflexivity.
Defined.

Lemma get_recommendations_lookup_failure_witness :
  exists w',
    get_recommendations (set_course_repo demo_controller demo_courses_down)
      "c1" demo_world = (inl (Raised "catalog unavailable"), w')
    /\ store w' !! "c1"
       = Some (add_recommendations demo_conversation ["kanji-1"; "gone"])
    /\ recommendations (add_recommendations demo_conversation ["kanji-1"; "gone"])
       = recommendations demo_conversation ++ ["kanji-1"; "gone"].
Proof.
  apply (@get_recommendations_lookup_failure demo (fun _ _ _ _ => inr [])
           demo_ai demo_scoring demo_recommender demo_courses_down
           "c1" demo_world demo_conversation ["kanji-1"] 2%nat
           "kanji-1" ["gone"] 2%nat (Raised "catalog unavailable") 2%nat);
    reflexivity.
Defined.

Lemma get_recommendations_nothing_to_suggest_witness :
  get_recommendations
    (set_course_repo
       (__init__ demo_repo demo_ai demo_scoring demo_recommender_empty)
       demo_courses)
    "c1" demo_world
  = (inr [],
     {| store := store demo_world; env := 2%nat;
        calls :=
          [ CallFindById "c1";
            CallCoursesByLevel "N4";
            CallGenerate demo_conversation ["kanji-1"];
            CallUpdate "c1" demo_conversation ] |}).
Proof.
  apply (@get_recommendations_nothing_to_suggest demo
           (set_course_repo
              (__init__ demo_repo demo_ai demo_scoring demo_recommender_empty)
              demo_courses)
           demo_courses "c1" demo_world demo_conversation (store demo_world)
           ["kanji-1"] 2%nat 2%nat (store demo_world));
    reflexivity.
Defined.

Lemma get_recommendations_generation_failure_witness :
  get_recommendations
    (set_course_repo
       (__init__ demo_repo demo_ai demo_scoring demo_recommender_down)
       demo_courses)
    "c1" demo_world
  = (inl (Raised "no engine"),
     {| store := store demo_world; env := 2%nat;
        calls := [ CallFindById "c1";
                   CallCoursesByLevel "N4";
                   CallGenerate demo_conversation ["kanji-1"] ] |}).
Proof.
  apply (@get_recommendations_generation_failure demo (fun _ _ _ _ => inr [])
           demo_ai demo_scoring demo_recommender_down demo_courses
           "c1" demo_world demo_conversation ["kanji-1"] 2%nat
           (Raised "no engine") 2%nat);
    reflexivity.
Defined.

Lemma get_recommendations_entries_witness :
  exists recs,
    store (snd demo_recs) !! "c1" = Some (add_recommendations demo_conversation recs)
    /\ length (detailed_of (fst demo_recs)) = length recs
    /\ forall i entry, detailed_of (fst demo_recs) !! i = Some entry ->
         exists rec,
           recs !! i = Some rec
           /\ is_Some (entry !! "course")
           /\ forall k, k ≠ "course" -> entry !! k = rec_to_dict rec !! k.
Proof.
  apply (@get_recommendations_entries demo (fun _ _ _ _ => inr [])
           demo_ai demo_scoring demo_recommender demo_courses
           "c1" demo_world demo_conversation
           (detailed_of (fst demo_recs)) (snd demo_recs));
    reflexivity.
Defined.

Lemma get_recommendations_twice_witness :
  exists courses1 e1 recs1 e1' ocs1 courses2 e2 recs2 e2' ocs2,
    course_find_by_level demo_courses (level demo_conversation) (env demo_world)
      = (inr courses1, e1)
    /\ generate_recommendations demo_recommender demo_conversation courses1 e1
       = (inr recs1, e1')
    /\ length ocs1 = length recs1
    /\ detailed_of (fst demo_recs) = zip_with join_course recs1 ocs1
    /\ course_find_by_level demo_courses (level demo_conversation)
         (env (snd demo_recs)) = (inr courses2, e2)
    /\ generate_recommendations demo_recommender
         (add_recommendations demo_conversation recs1) courses2 e2
       = (inr recs2, e2')
    /\ length ocs2 = length recs2
    /\ detailed_of (fst demo_recs2) = zip_with join_course recs2 ocs2
    /\ store (snd demo_recs2) !! "c1"
       = Some {| user_id := "u1"; topic := "travel"; level := "N4";
                 messages := messages demo_conversation;
                 score := score demo_conversation;
                 recommendations :=
                   recommendations demo_conversation ++ recs1 ++ recs2 |}.
Proof.
  apply (@get_recommendations_twice demo (fun _ _ _ _ => inr [])
           demo_ai demo_scoring demo_recommender demo_courses
           "c1" demo_world demo_conversation
           (detailed_of (fst demo_recs)) (snd demo_recs)
           (detailed_of (fst demo_recs2)) (snd demo_recs2));
    reflexivity.
Defined.

Lemma get_recommendations_only_adds_witness :
  option_Forall2 recommends_more
    (store demo_world !! "c1") (store (snd demo_recs) !! "c1")
  /\ option_Forall2 recommends_more
       (store demo_world !! "c1")
       (store (snd (get_recommendations demo_controller "c1" demo_world)) !! "c1").
Proof.
  split.
  - apply (@get_recommendations_only_adds demo demo_controller_courses
             (fun _ _ _ _ => inr []) "c1" demo_world
             (fst demo_recs) (snd demo_recs) "c1");
      reflexivity.
  - apply (@get_recommendations_only_adds demo demo_controller
             (fun _ _ _ _ => inr []) "c1" demo_world
             (fst (get_recommendations demo_controller "c1" demo_world))
             (snd (get_recommendations demo_controller "c1" demo_world)) "c1");
      reflexivity.
Defined.

(** The two requests of [demo_recs] and [demo_recs2], evaluated. *)
Example demo_recs_stored :
  recommendations <$> (store (snd demo_recs2) !! "c1")
  = Some ["kanji-1"; "gone"; "kanji-1"; "gone"].
Proof. reflexivity. Qed.

End Runs.
